(** * Review Analyzer backend: a shallow embedding of [backend/main.py]

    The backend exposes three operations on top of a local Ollama server:
    [query_ollama] (one prompt, bounded retries), [health_check] and
    [analyze_review] (three prompts per review, answers cleaned up).

    Python strings are lists of Unicode code points.  The network is an
    explicit oracle [server]; every request that is sent is appended to a
    log, so that the number and the order of the network calls can be
    stated.  Python exceptions are the [Raise] branch of [result].  The
    calls to the logger change neither results nor requests and are left
    out; the decoding options of a request are kept as the decimal
    literals of the source. *)

From Stdlib Require Import List String Ascii NArith ZArith Bool Lia.
Import ListNotations.

Set Implicit Arguments.

(** ** Python [str] *)

Module PyStr.

(** A character is a Unicode code point. *)
Definition char := N.
Definition str := list char.

Definition char_of_ascii (a : ascii) : char := N_of_ascii a.

(** Source literals are ASCII; [of_string] injects them. *)
Definition of_string (s : string) : str :=
  map char_of_ascii (list_ascii_of_string s).

Definition newline : char := 10%N.
Definition dquote : char := 34%N.

(** [str.isspace] on one character: the code points CPython lists in
    [_PyUnicode_IsWhitespace]. *)
Definition isspace (c : char) : bool :=
  ((9 <=? c) && (c <=? 13)
   || (28 <=? c) && (c <=? 32)
   || (c =? 133) || (c =? 160) || (c =? 5760)
   || (8192 <=? c) && (c <=? 8202)
   || (c =? 8232) || (c =? 8233) || (c =? 8239)
   || (c =? 8287) || (c =? 12288))%N.

Fixpoint lstrip (s : str) : str :=
  match s with
  | [] => []
  | c :: s' => if isspace c then lstrip s' else s
  end.

Definition rstrip (s : str) : str := rev (lstrip (rev s)).

(** [s.strip()] *)
Definition strip (s : str) : str := rstrip (lstrip s).

(** [s.split(sep)] for a one-character separator: never an empty list. *)
Fixpoint split (sep : char) (s : str) : list str :=
  match s with
  | [] => [[]]
  | c :: s' =>
      if (c =? sep)%N then [] :: split sep s'
      else match split sep s' with
           | [] => [[c]]
           | w :: ws => (c :: w) :: ws
           end
  end.

(** Truth value of a string: the empty string is false. *)
Definition truthy (s : str) : bool :=
  match s with [] => false | _ :: _ => true end.

Fixpoint eqb (s t : str) : bool :=
  match s, t with
  | [], [] => true
  | c :: s', d :: t' => (c =? d)%N && eqb s' t'
  | _, _ => false
  end.

(** The text before the first occurrence of [sep]. *)
Fixpoint before (sep : char) (s : str) : str :=
  match s with
  | [] => []
  | c :: s' => if (c =? sep)%N then [] else c :: before sep s'
  end.

(** [t] occurs in [s] as a contiguous run of characters. *)
Definition substring (t s : str) : Prop :=
  exists pre post, s = pre ++ t ++ post.

End PyStr.
Import PyStr.

(** ** Exceptions and results *)

(** The exceptions that can travel through the backend.  The first three are
    the classes of [requests.exceptions] the retry loop tells apart;
    [ConnectTimeout] derives from both [ConnectionError] and [Timeout]. *)
Inductive exc : Type :=
| ConnectionError                     (* connection refused, DNS failure, ... *)
| ConnectTimeout                      (* timed out while connecting *)
| ReadTimeout                         (* timed out waiting for the answer *)
| HTTPError                           (* raised by raise_for_status *)
| JSONDecodeError                     (* raised by response.json *)
| AttributeError                      (* method looked up on the wrong type *)
| IndexError
| OtherException (name : string)      (* any other subclass of Exception *)
| HTTPException (status_code : Z) (detail : string).   (* fastapi *)

(** The classes named by the [except] clauses of the source. *)
Inductive exc_class : Type :=
| ConnectionErrorClass
| TimeoutClass
| HTTPExceptionClass
| ExceptionClass.

Definition isinstance (e : exc) (c : exc_class) : bool :=
  match c, e with
  | ConnectionErrorClass, (ConnectionError | ConnectTimeout) => true
  | TimeoutClass, (ConnectTimeout | ReadTimeout) => true
  | HTTPExceptionClass, HTTPException _ _ => true
  | ExceptionClass, _ => true
  | _, _ => false
  end.

Inductive result (A : Type) : Type :=
| Return (a : A)
| Raise (e : exc).
Arguments Raise {A} e.

(** ** The inference server seen from the client *)

(** A decoded JSON document. *)
#[local] Unset Elimination Schemes.
Inductive json : Type :=
| JNull
| JBool (b : bool)
| JNumber (n : Z)
| JString (s : str)
| JArray (items : list json)
| JObject (fields : list (str * json)).
#[local] Set Elimination Schemes.

Record response : Type := {
  status_code : Z;
  (** [None] when the body is not a JSON document *)
  body : option json
}.

Record generate_payload : Type := {
  model : string;
  prompt : str;
  stream : bool;
  options : list (string * string)
}.

Inductive request : Type :=
| Post (url : string) (payload : generate_payload) (timeout : Z)
| Get (url : string) (timeout : Z).

(** What one HTTP exchange does: it raises or it hands back a response. *)
Inductive outcome : Type :=
| Raises (e : exc)
| Responds (r : response).

(** The server and the network between it and the backend: the outcome of a
    request may depend on everything that was sent before. *)
Definition transport := list request -> request -> outcome.

(** ** Computations that send requests and may raise *)

Definition M (A : Type) : Type := list request -> result A * list request.

Definition ret {A} (a : A) : M A := fun log => (Return a, log).

Definition raise {A} (e : exc) : M A := fun log => (Raise e, log).

Definition bind {A B} (m : M A) (k : A -> M B) : M B :=
  fun log =>
    match m log with
    | (Return a, log') => k a log'
    | (Raise e, log') => (Raise e, log')
    end.

Definition lift {A} (r : result A) : M A := fun log => (r, log).

(** [try: m except ... as e: h e] *)
Definition try_except {A} (m : M A) (h : exc -> M A) : M A :=
  fun log =>
    match m log with
    | (Return a, log') => (Return a, log')
    | (Raise e, log') => h e log'
    end.

Declare Scope py_scope.
Delimit Scope py_scope with py.
Notation "x <- m ;; k" := (bind m (fun x => k))
  (at level 100, m at next level, right associativity) : py_scope.
Open Scope py_scope.

(** A Python value that is either [None] or a [str]. *)
Inductive pyval : Type :=
| PyNone
| PyStr (s : str).

(** The dictionary [analyze_review] returns. *)
Record AnalysisResult : Type := {
  sentiment : str;
  topic : str;
  summary : str
}.

(** The dictionary [health_check] returns. *)
Record HealthStatus : Type := {
  status : string;
  ollama : string
}.

(** ** The response-handling steps of the source *)

(** [response.raise_for_status()]: client and server error codes raise. *)
Definition raise_for_status (r : response) : result unit :=
  if ((400 <=? status_code r) && (status_code r <? 600))%Z
  then Raise HTTPError else Return tt.

(** [response.json()] *)
Definition response_json (r : response) : result json :=
  match body r with
  | Some j => Return j
  | None => Raise JSONDecodeError
  end.

Fixpoint lookup (key : str) (fields : list (str * json)) : option json :=
  match fields with
  | [] => None
  | (k, v) :: rest => if PyStr.eqb k key then Some v else lookup key rest
  end.

(** [result.get(key, default)]: only a JSON object has the method. *)
Definition dict_get (j : json) (key : str) (default : json) : result json :=
  match j with
  | JObject fields =>
      Return (match lookup key fields with Some v => v | None => default end)
  | _ => Raise AttributeError
  end.

(** [v.strip()]: only a string has the method. *)
Definition json_strip (v : json) : result str :=
  match v with
  | JString s => Return (strip s)
  | _ => Raise AttributeError
  end.

(** [range(n)] *)
Definition range (n : Z) : list Z := map Z.of_nat (seq 0 (Z.to_nat n)).

Definition generate_url : string := "http://localhost:11434/api/generate".
Definition tags_url : string := "http://localhost:11434/api/tags".

Definition generate_request (p : str) : request :=
  Post generate_url
       {| model := "mistral";
          prompt := p;
          stream := false;
          options := [("temperature"%string, "0.1"%string);
                      ("top_p"%string, "0.9"%string)] |}
       30.

Definition tags_request : request := Get tags_url 5.

Definition unreachable_detail : string :=
  "Cannot connect to Ollama. Make sure Ollama is running on localhost:11434".
Definition timed_out_detail : string :=
  "Ollama request timed out. Please try again.".
Definition model_error_detail : string :=
  "Error processing request with AI model".
Definition empty_input_detail : string := "Review text cannot be empty".
Definition internal_error_detail : string := "Internal server error".

(** ** The prompts of [analyze_review] *)

Definition review_block (text : str) : str :=
  [newline; newline] ++ of_string "Review: " ++ [dquote] ++ text ++ [dquote]
  ++ [newline; newline].

Definition sentiment_question : str :=
  of_string "respond with only one word: Positive, Neutral, or Negative.".

Definition sentiment_prompt (text : str) : str :=
  of_string "Analyze the sentiment of this product review and "
  ++ sentiment_question
  ++ review_block text ++ of_string "Sentiment:".

Definition topic_prompt (text : str) : str :=
  of_string "Identify the main topic or issue discussed in this product review. Choose from these categories or provide a brief 2-3 word description:"
  ++ [newline] ++ of_string "- Product Quality"
  ++ [newline] ++ of_string "- Delivery/Shipping  "
  ++ [newline] ++ of_string "- Price/Value"
  ++ [newline] ++ of_string "- Customer Service"
  ++ [newline] ++ of_string "- Design/Appearance"
  ++ [newline] ++ of_string "- Functionality"
  ++ [newline] ++ of_string "- Durability"
  ++ review_block text ++ of_string "Main Topic:".

Definition summary_prompt (text : str) : str :=
  of_string "Summarize this product review in one concise sentence (maximum 15 words):"
  ++ review_block text ++ of_string "Summary:".

(** [raw.split(newline)[0].strip()], the clean-up applied to each answer.
    A [None] has no [split]; indexing an empty list raises. *)
Definition clean_up (raw : pyval) : result str :=
  match raw with
  | PyNone => Raise AttributeError
  | PyStr s =>
      match split newline s with
      | [] => Raise IndexError
      | first :: _ => Return (strip first)
      end
  end.

Section Backend.

Variable server : transport.

(** [requests.post] and [requests.get]: the request is logged, the server
    decides the outcome. *)
Definition send (req : request) : M response :=
  fun log =>
    (match server log req with
     | Raises e => Raise e
     | Responds r => Return r
     end, log ++ [req]).

(** The body of the [try] in [query_ollama]. *)
Definition attempt_body (p : str) : M pyval :=
  response <- send (generate_request p) ;;
  _ <- lift (raise_for_status response) ;;
  result <- lift (response_json response) ;;
  v <- lift (dict_get result (of_string "response") (JString [])) ;;
  s <- lift (json_strip v) ;;
  ret (PyStr s).

(** The [for attempt in range(max_retries)] loop over the attempts that
    are left.  An exception is swallowed unless the attempt is the last
    one; running out of attempts falls off the end of the function. *)
Fixpoint query_loop (p : str) (max_retries : Z) (attempts : list Z)
  : M pyval :=
  match attempts with
  | [] => ret PyNone
  | attempt :: rest =>
      try_except (attempt_body p)
        (fun e =>
           if isinstance e ConnectionErrorClass then
             if (attempt =? max_retries - 1)%Z
             then raise (HTTPException 503 unreachable_detail)
             else query_loop p max_retries rest
           else if isinstance e TimeoutClass then
             if (attempt =? max_retries - 1)%Z
             then raise (HTTPException 504 timed_out_detail)
             else query_loop p max_retries rest
           else
             if (attempt =? max_retries - 1)%Z
             then raise (HTTPException 500 model_error_detail)
             else query_loop p max_retries rest)
  end.

Definition query_ollama (p : str) (max_retries : Z) : M pyval :=
  query_loop p max_retries (range max_retries).

(** The default value of [max_retries]. *)
Definition default_max_retries : Z := 3.

Definition healthy : HealthStatus :=
  {| status := "healthy"; ollama := "connected" |}.
Definition unhealthy : HealthStatus :=
  {| status := "unhealthy"; ollama := "disconnected" |}.

(** The bare [except:] catches whatever the probe raises. *)
Definition health_check : M HealthStatus :=
  try_except
    (response <- send tags_request ;;
     _ <- lift (raise_for_status response) ;;
     ret healthy)
    (fun _ => ret unhealthy).

Definition analyze_review (text : str) : M AnalysisResult :=
  if negb (truthy (strip text)) then
    raise (HTTPException 400 empty_input_detail)
  else
    try_except
      (sentiment <- query_ollama (sentiment_prompt text) default_max_retries ;;
       topic <- query_ollama (topic_prompt text) default_max_retries ;;
       summary <- query_ollama (summary_prompt text) default_max_retries ;;
       sentiment_clean <- lift (clean_up sentiment) ;;
       topic_clean <- lift (clean_up topic) ;;
       summary_clean <- lift (clean_up summary) ;;
       ret {| sentiment := sentiment_clean;
              topic := topic_clean;
              summary := summary_clean |})
      (fun e =>
         if isinstance e HTTPExceptionClass then raise e
         else raise (HTTPException 500 internal_error_detail)).

End Backend.

(** The steps between the HTTP exchange and the [return] of one attempt,
    as one function of the response. *)
Definition read_answer (r : response) : result pyval :=
  match raise_for_status r with
  | Raise e => Raise e
  | Return _ =>
      match response_json r with
      | Raise e => Raise e
      | Return result =>
          match dict_get result (of_string "response") (JString []) with
          | Raise e => Raise e
          | Return v =>
              match json_strip v with
              | Raise e => Raise e
              | Return s => Return (PyStr s)
              end
          end
      end
  end.

(** What one attempt yields, given the outcome of its HTTP exchange. *)
Definition attempt_result (o : outcome) : result pyval :=
  match o with
  | Raises e => Raise e
  | Responds r => read_answer r
  end.

(** The exception the retry loop raises when its last attempt raised [e]:
    the three [except] clauses in their order. *)
Definition final_error (e : exc) : exc :=
  if isinstance e ConnectionErrorClass then HTTPException 503 unreachable_detail
  else if isinstance e TimeoutClass then HTTPException 504 timed_out_detail
  else HTTPException 500 model_error_detail.

(** The attempts [k, k+1, ..., k+j-1] of the retry loop. *)
Definition attempts_from (k j : nat) : list Z := map Z.of_nat (seq k j).

(** ** Servers to run the backend against *)

(** A server that meets every request with the same outcome. *)
Definition always (o : outcome) : transport := fun _ _ => o.

(** A server that plays a script: the n-th request it sees gets the n-th
    outcome, and the connection is refused once the script is over. *)
Definition scripted (script : list outcome) : transport :=
  fun log _ => nth (List.length log) script (Raises ConnectionError).

(** A 200 answer whose JSON body is an object with the given fields. *)
Definition ok_object (fields : list (str * json)) : response :=
  {| status_code := 200; body := Some (JObject fields) |}.

(** A 200 answer carrying [text] in its response field. *)
Definition ok_text (text : string) : response :=
  ok_object [(of_string "response", JString (of_string text))].

(** An answer with a non-error status whose JSON object has no response
    field, or has the empty string there. *)
Definition empty_answer (r : response) : Prop :=
  raise_for_status r = Return tt /\
  exists fields,
    body r = Some (JObject fields) /\
    (lookup (of_string "response") fields = None \/
     lookup (of_string "response") fields = Some (JString [])).

(** Neither the first nor the last character is whitespace. *)
Definition clean_ends (s : str) : bool :=
  match s with
  | [] => true
  | c :: _ => negb (isspace c) && negb (isspace (last s c))
  end.

(** No whitespace at either end. *)
Definition trimmed (s : str) : Prop :=
  (forall c t, s = c :: t -> isspace c = false) /\
  (forall c t, s = t ++ [c] -> isspace c = false).

(** An answer the client cannot read: an error status, a body that is not
    JSON, a JSON document that is not an object, or a response field that
    is not a string. *)
Definition malformed (r : response) : bool :=
  ((400 <=? status_code r) && (status_code r <? 600))%Z
  || match body r with
     | Some (JObject fields) =>
         match lookup (of_string "response") fields with
         | Some (JString _) | None => false
         | Some _ => true
         end
     | _ => true
     end.

(** An answer with a non-error status whose JSON object carries the string
    [text] in its response field. *)
Definition answers_with (r : response) (text : str) : Prop :=
  raise_for_status r = Return tt /\
  exists fields,
    body r = Some (JObject fields) /\
    lookup (of_string "response") fields = Some (JString text).

(** The three errors the inference client raises. *)
Definition client_error (e : exc) : Prop :=
  e = HTTPException 503 unreachable_detail \/
  e = HTTPException 504 timed_out_detail \/
  e = HTTPException 500 model_error_detail.

(** The first line of an answer, stripped: what becomes a field of the
    result once the client has stripped the answer itself. *)
Definition cleaned (s : str) : str := strip (before newline s).

(** ** The backend behind FastAPI *)

(** What FastAPI makes of a path operation: a returned value is sent as JSON
    with status 200, an [HTTPException] as its status code with the detail
    in a JSON object, any other exception as a 500 without a JSON body. *)
Definition fastapi_response {A} (encode : A -> json) (r : result A) : response :=
  match r with
  | Return a => {| status_code := 200; body := Some (encode a) |}
  | Raise (HTTPException code detail) =>
      {| status_code := code;
         body := Some (JObject [(of_string "detail", JString (of_string detail))]) |}
  | Raise _ => {| status_code := 500; body := None |}
  end.

Definition json_of_health (h : HealthStatus) : json :=
  JObject [(of_string "status", JString (of_string (status h)));
           (of_string "ollama", JString (of_string (ollama h)))].

Definition json_of_analysis (a : AnalysisResult) : json :=
  JObject [(of_string "sentiment", JString (sentiment a));
           (of_string "topic", JString (topic a));
           (of_string "summary", JString (summary a))].

(** The answer of [GET /health] and of [POST /analyze/] for a form whose
    text field is [text], when the requests sent to Ollama so far are
    [log]. *)
Definition health_route (server : transport) (log : list request) : response :=
  fastapi_response json_of_health (fst (health_check server log)).


(** ** The frontend: [frontend/app.py] *)

Module Frontend.

Definition health_url : string := "http://localhost:8000/health".
Definition analyze_url : string := "http://localhost:8000/analyze/".

Section Rows.

(** The type of the values held in the cells of the uploaded table. *)
Variable cell : Type.

(** A row of the table, restricted to the three required columns. *)
Record row : Type := {
  product_id : cell;
  product_name : cell;
  review_text : cell
}.

(** The requests of the frontend: a form posted, or a plain [GET]. *)
Inductive frequest : Type :=
| FPost (url : string) (data : list (string * cell)) (timeout : Z)
| FGet (url : string) (timeout : Z).

(** The backend and the network in front of it, seen from the frontend. *)
Definition ftransport := list frequest -> frequest -> outcome.

(** An entry of [results]. *)
Record analysed : Type := {
  a_product_id : cell;
  a_product_name : cell;
  a_review_text : cell;
  a_sentiment : json;
  a_topic : json;
  a_summary : json
}.

(** What the page shows while a batch runs.  A message is kept as the
    values it is formatted from; [n] is the number of the review, counted
    from one.  Creating and clearing the progress bar and the status line
    are not recorded, nor is the pause after each review. *)
Inductive ui_event : Type :=
| StatusText (n total : Z)            (* Analyzing review n of total... *)
| ErrorStatus (n : Z) (r : response)  (* Error analyzing review n: response.text *)
| ErrorTimeout (n : Z)                (* Timeout analyzing review n *)
| ErrorException (n : Z) (e : exc)    (* Error analyzing review n: str(e) *)
| Progress (num den : Z)              (* progress_bar.progress(num / den) *)
| ErrorNoResults                      (* No reviews were successfully analyzed. *)
| Success (count : nat).              (* Analysis complete! Processed count reviews. *)

Record ui_state : Type := {
  results : list analysed;
  events : list ui_event;
  sent : list frequest
}.

(** Computations of the frontend: they change the page, the list of results
    and the log of requests, and may raise. *)
Definition UI (A : Type) : Type := ui_state -> result A * ui_state.

Definition ui_ret {A} (a : A) : UI A := fun st => (Return a, st).

Definition ui_bind {A B} (m : UI A) (k : A -> UI B) : UI B :=
  fun st =>
    match m st with
    | (Return a, st') => k a st'
    | (Raise e, st') => (Raise e, st')
    end.

Definition ui_lift {A} (r : result A) : UI A := fun st => (r, st).

Definition ui_try {A} (m : UI A) (h : exc -> UI A) : UI A :=
  fun st =>
    match m st with
    | (Return a, st') => (Return a, st')
    | (Raise e, st') => h e st'
    end.

Definition emit (ev : ui_event) : UI unit :=
  fun st =>
    (Return tt,
     {| results := results st; events := events st ++ [ev]; sent := sent st |}).

(** [results.append(entry)] *)
Definition append_result (entry : analysed) : UI unit :=
  fun st =>
    (Return tt,
     {| results := results st ++ [entry]; events := events st; sent := sent st |}).

Variable server : ftransport.

Definition fsend (req : frequest) : UI response :=
  fun st =>
    (match server (sent st) req with
     | Raises e => Raise e
     | Responds r => Return r
     end,
     {| results := results st; events := events st; sent := sent st ++ [req] |}).

(** [data[key]]: a missing key raises [KeyError], a value that is not an
    object cannot be indexed by a string. *)
Definition subscript (data : json) (key : string) : result json :=
  match data with
  | JObject fields =>
      match lookup (of_string key) fields with
      | Some v => Return v
      | None => Raise (OtherException "KeyError")
      end
  | _ => Raise (OtherException "TypeError")
  end.

Definition analyze_request (r : row) : frequest :=
  FPost analyze_url [("text"%string, review_text r)] 30.

(** [check_backend_connection]: the bare [except:] turns every exception
    into [False]. *)
Definition check_backend_connection : UI bool :=
  ui_try
    (ui_bind (fsend (FGet health_url 5))
       (fun response => ui_ret (status_code response =? 200)%Z))
    (fun _ => ui_ret false).

(** The [try] block of the loop of [analyze_reviews], for the row [r] of
    index [idx] out of [total] rows. *)
Definition row_body (idx total : Z) (r : row) : UI unit :=
  ui_bind (emit (StatusText (idx + 1) total)) (fun _ =>
  ui_bind (fsend (analyze_request r)) (fun response =>
  if (status_code response =? 200)%Z then
    ui_bind (ui_lift (response_json response)) (fun data =>
    ui_bind (ui_lift (subscript data "sentiment")) (fun sentiment =>
    ui_bind (ui_lift (subscript data "topic")) (fun topic =>
    ui_bind (ui_lift (subscript data "summary")) (fun summary =>
    append_result
      {| a_product_id := product_id r;
         a_product_name := product_name r;
         a_review_text := review_text r;
         a_sentiment := sentiment;
         a_topic := topic;
         a_summary := summary |}))))
  else emit (ErrorStatus (idx + 1) response))).

(** The two [except] clauses of the loop. *)
Definition row_handler (idx : Z) (e : exc) : UI unit :=
  if isinstance e TimeoutClass then emit (ErrorTimeout (idx + 1))
  else emit (ErrorException (idx + 1) e).

(** [for idx, row in df.iterrows()] *)
Fixpoint analyze_loop (total : Z) (rows : list (Z * row)) : UI unit :=
  match rows with
  | [] => ui_ret tt
  | (idx, r) :: rest =>
      ui_bind (ui_try (row_body idx total r) (row_handler idx)) (fun _ =>
      ui_bind (emit (Progress (idx + 1) total)) (fun _ =>
      analyze_loop total rest))
  end.

(** [df.iterrows()] for a table read from a CSV file: the index of a row
    is its position. *)
Definition iterrows (df : list row) : list (Z * row) :=
  combine (map Z.of_nat (seq 0 (List.length df))) df.

(** [analyze_reviews] up to the message that closes the batch; the tables
    and charts drawn after it are not part of the model.  [results] starts
    empty. *)
Definition analyze_reviews (df : list row) : UI unit :=
  fun st =>
    let start := {| results := []; events := events st; sent := sent st |} in
    match analyze_loop (Z.of_nat (List.length df)) (iterrows df) start with
    | (Return _, st') =>
        match results st' with
        | [] => emit ErrorNoResults st'
        | _ :: _ => emit (Success (List.length (results st'))) st'
        end
    | (Raise e, st') => (Raise e, st')
    end.




End Rows.

End Frontend.

(** [l] is [m] with some elements left out, the order kept. *)
Inductive subseq {A : Type} : list A -> list A -> Prop :=
| subseq_nil : subseq [] []
| subseq_skip : forall x l m, subseq l m -> subseq l (x :: m)
| subseq_keep : forall x l m, subseq l m -> subseq (x :: l) (x :: m).

(** ** Strings: stripping and splitting *)

Section Strings.

Lemma forallb_rev_eq (A : Type) (f : A -> bool) (l : list A) :
  forallb f (rev l) = forallb f l.
Proof.
  induction l as [|a l IH]; simpl; [reflexivity|].
  rewrite forallb_app, IH. simpl.
  rewrite andb_true_r. apply andb_comm.
Qed.

Lemma lstrip_blank (s : str) : forallb isspace s = true -> lstrip s = [].
Proof.
  induction s as [|c s IH]; simpl; [reflexivity|].
  intros H. apply andb_true_iff in H as [Hc Hs].
  rewrite Hc. auto.
Qed.

Lemma lstrip_head (s : str) c t : lstrip s = c :: t -> isspace c = false.
Proof.
  induction s as [|d s IH]; simpl; [discriminate|].
  destruct (isspace d) eqn:Hd; [exact IH|].
  intros H. injection H as <- _. exact Hd.
Qed.


Lemma lstrip_split (s : str) :
  exists pre, s = pre ++ lstrip s /\ forallb isspace pre = true.
Proof.
  induction s as [|c s [pre [Heq Hpre]]]; simpl.
  - exists []. split; reflexivity.
  - destruct (isspace c) eqn:Hc.
    + exists (c :: pre). simpl. rewrite Hc, Hpre. split; [f_equal; exact Heq | reflexivity].
    + exists []. split; reflexivity.
Qed.

Lemma lstrip_fixed (s : str) :
  (forall c t, s = c :: t -> isspace c = false) -> lstrip s = s.
Proof.
  destruct s as [|c s]; simpl; [reflexivity|].
  intros H. rewrite (H c s eq_refl). reflexivity.
Qed.

Lemma rstrip_split (s : str) :
  exists post, s = rstrip s ++ post /\ forallb isspace post = true.
Proof.
  unfold rstrip. destruct (lstrip_split (rev s)) as [pre [Heq Hpre]].
  exists (rev pre). split.
  - rewrite <- rev_app_distr, <- Heq, rev_involutive. reflexivity.
  - rewrite forallb_rev_eq. exact Hpre.
Qed.

Lemma rstrip_last (s : str) c t : rstrip s = t ++ [c] -> isspace c = false.
Proof.
  unfold rstrip. intros H.
  apply (f_equal (@rev char)) in H.
  rewrite rev_involutive, rev_app_distr in H. simpl in H.
  exact (lstrip_head _ H).
Qed.

Lemma rstrip_head (s : str) :
  (forall c t, s = c :: t -> isspace c = false) ->
  forall c t, rstrip s = c :: t -> isspace c = false.
Proof.
  intros Hs c t H.
  destruct (rstrip_split s) as [post [Heq _]].
  rewrite H in Heq. simpl in Heq. exact (Hs _ _ Heq).
Qed.

Lemma rstrip_fixed (s : str) :
  (forall c t, s = t ++ [c] -> isspace c = false) -> rstrip s = s.
Proof.
  intros H. unfold rstrip. rewrite lstrip_fixed.
  - apply rev_involutive.
  - intros c t Hr. apply (H c (rev t)).
    rewrite <- (rev_involutive s), Hr. reflexivity.
Qed.

Lemma strip_trimmed (s : str) : trimmed (strip s).
Proof.
  split.
  - apply rstrip_head. intros c t. apply lstrip_head.
  - intros c t. apply rstrip_last.
Qed.

Lemma strip_split (s : str) :
  exists pre post,
    s = pre ++ strip s ++ post /\
    forallb isspace pre = true /\ forallb isspace post = true.
Proof.
  destruct (lstrip_split s) as [pre [Hs Hpre]].
  destruct (rstrip_split (lstrip s)) as [post [Hl Hpost]].
  exists pre, post. repeat split; try assumption.
  unfold strip. rewrite <- Hl. exact Hs.
Qed.

Lemma strip_fixed (s : str) : trimmed s -> strip s = s.
Proof.
  intros [Hh Hl]. unfold strip.
  rewrite (lstrip_fixed Hh). apply rstrip_fixed. exact Hl.
Qed.

Lemma strip_blank (s : str) : forallb isspace s = true -> strip s = [].
Proof.
  intros H. unfold strip. rewrite (lstrip_blank _ H). reflexivity.
Qed.

Lemma strip_nil (s : str) : strip s = [] -> forallb isspace s = true.
Proof.
  intros H. destruct (strip_split s) as [pre [post [Heq [Hpre Hpost]]]].
  rewrite H in Heq. rewrite Heq. simpl.
  rewrite forallb_app, Hpre, Hpost. reflexivity.
Qed.

Lemma truthy_strip (s : str) :
  truthy (strip s) = negb (forallb isspace s).
Proof.
  destruct (forallb isspace s) eqn:H.
  - rewrite (strip_blank _ H). reflexivity.
  - destruct (strip s) eqn:Hs; [|reflexivity].
    apply strip_nil in Hs. congruence.
Qed.

Lemma split_before (sep : char) (s : str) :
  exists rest, split sep s = before sep s :: rest.
Proof.
  induction s as [|c s [rest IH]]; simpl.
  - exists []. reflexivity.
  - destruct (c =? sep)%N.
    + eexists. reflexivity.
    + rewrite IH. eexists. reflexivity.
Qed.

Lemma before_spec (sep : char) (s : str) :
  ~ In sep (before sep s) /\
  (s = before sep s \/ exists rest, s = before sep s ++ sep :: rest).
Proof.
  induction s as [|c s [Hin Hs]]; simpl.
  - split; [tauto | left; reflexivity].
  - destruct (N.eqb_spec c sep) as [->|Hne]; simpl.
    + split; [tauto | right; eexists; reflexivity].
    + split; [intros [H|H]; [congruence | tauto] |].
      destruct Hs as [Hs | [rest Hs]].
      * left. f_equal. exact Hs.
      * right. exists rest. f_equal. exact Hs.
Qed.

Lemma before_fixed (sep : char) (s : str) : ~ In sep s -> before sep s = s.
Proof.
  induction s as [|c s IH]; simpl; [reflexivity|].
  intros H. destruct (N.eqb_spec c sep) as [->|Hne]; [tauto|].
  f_equal. apply IH. tauto.
Qed.

End Strings.

(** ** One attempt *)

Lemma read_answer_return (r : response) (v : pyval) :
  read_answer r = Return v ->
  raise_for_status r = Return tt /\
  exists fields,
    body r = Some (JObject fields) /\
    ((exists text, lookup (of_string "response") fields = Some (JString text)
                   /\ v = PyStr (strip text))
     \/ (lookup (of_string "response") fields = None /\ v = PyStr [])).
Proof.
  unfold read_answer, response_json, dict_get, json_strip.
  destruct (raise_for_status r) as [[]|e]; [|discriminate].
  destruct (body r) as [[| | | |items|fields]|]; try discriminate.
  intros H. split; [reflexivity|]. exists fields. split; [reflexivity|].
  destruct (lookup (of_string "response") fields) as [[| | |text| |]|];
    try discriminate; injection H as <-.
  - left. exists text. split; reflexivity.
  - right. split; reflexivity.
Qed.

Lemma final_error_http (e : exc) :
  final_error e = HTTPException 503 unreachable_detail \/
  final_error e = HTTPException 504 timed_out_detail \/
  final_error e = HTTPException 500 model_error_detail.
Proof.
  unfold final_error.
  destruct (isinstance e ConnectionErrorClass); [tauto|].
  destruct (isinstance e TimeoutClass); tauto.
Qed.

Lemma repeat_snoc (A : Type) (a : A) (n : nat) :
  repeat a n ++ [a] = repeat a (S n).
Proof. symmetry. apply repeat_cons. Qed.

Lemma app_repeat_S (A : Type) (l : list A) (a : A) (n : nat) :
  (l ++ [a]) ++ repeat a n = l ++ repeat a (S n).
Proof. rewrite <- app_assoc. reflexivity. Qed.

(** ** The retry loop *)

Section Loop.

Variable server : transport.
Variable p : str.
Variable max_retries : Z.

Let req : request := generate_request p.

Lemma attempt_body_eq (log : list request) :
  attempt_body server p log = (attempt_result (server log req), log ++ [req]).
Proof.
  unfold attempt_body, bind, send, lift, ret, attempt_result, read_answer.
  fold req. destruct (server log req) as [e|r]; [reflexivity|].
  destruct (raise_for_status r); [|reflexivity].
  destruct (response_json r); [|reflexivity].
  destruct (dict_get _ _ _); [|reflexivity].
  destruct (json_strip _); reflexivity.
Qed.

(** One iteration: return on success, raise on the last attempt, go on
    otherwise. *)
Lemma query_loop_step (attempt : Z) (rest : list Z) (log : list request) :
  query_loop server p max_retries (attempt :: rest) log =
  match attempt_result (server log req) with
  | Return v => (Return v, log ++ [req])
  | Raise e =>
      if (attempt =? max_retries - 1)%Z
      then (Raise (final_error e), log ++ [req])
      else query_loop server p max_retries rest (log ++ [req])
  end.
Proof.
  cbn [query_loop]. unfold try_except. rewrite attempt_body_eq.
  destruct (attempt_result (server log req)) as [v|e]; [reflexivity|].
  unfold final_error.
  destruct (isinstance e ConnectionErrorClass);
    [|destruct (isinstance e TimeoutClass)];
    destruct (attempt =? max_retries - 1)%Z; reflexivity.
Qed.

Lemma attempts_from_S (k j : nat) :
  attempts_from k (S j) = Z.of_nat k :: attempts_from (S k) j.
Proof. reflexivity. Qed.

(** Failing attempts before the last one are skipped. *)
Lemma query_loop_skip (i : nat) :
  forall (k j : nat) (log : list request),
    Z.of_nat (k + j) = max_retries ->
    (i < j)%nat ->
    (forall t, (t < i)%nat ->
       exists e, attempt_result (server (log ++ repeat req t) req) = Raise e) ->
    query_loop server p max_retries (attempts_from k j) log =
    query_loop server p max_retries (attempts_from (k + i) (j - i))
               (log ++ repeat req i).
Proof.
  induction i as [|i IH]; intros k j log Hm Hij Hfail.
  - simpl. rewrite Nat.add_0_r, Nat.sub_0_r, app_nil_r. reflexivity.
  - destruct j as [|j]; [lia|].
    rewrite attempts_from_S, query_loop_step.
    destruct (Hfail 0%nat ltac:(lia)) as [e He].
    simpl in He. rewrite app_nil_r in He. rewrite He.
    destruct (Z.eqb_spec (Z.of_nat k) (max_retries - 1)) as [Hk|Hk]; [lia|].
    rewrite (IH (S k) j (log ++ [req])); try lia.
    + rewrite app_repeat_S. f_equal. f_equal; lia.
    + intros t Ht. rewrite app_repeat_S. apply Hfail. lia.
Qed.

(** A success at attempt [i] (counted from 0) ends the loop there. *)
Lemma query_loop_success (i : nat) (v : pyval) (log : list request) :
  (Z.of_nat i < max_retries)%Z ->
  (forall t, (t < i)%nat ->
     exists e, attempt_result (server (log ++ repeat req t) req) = Raise e) ->
  attempt_result (server (log ++ repeat req i) req) = Return v ->
  query_ollama server p max_retries log = (Return v, log ++ repeat req (S i)).
Proof.
  intros Hi Hfail Hok. unfold query_ollama, range.
  change (map Z.of_nat (seq 0 (Z.to_nat max_retries)))
    with (attempts_from 0 (Z.to_nat max_retries)).
  rewrite (@query_loop_skip i 0 (Z.to_nat max_retries) log); try lia; auto.
  destruct (Z.to_nat max_retries - i)%nat as [|j] eqn:Hj; [lia|].
  rewrite attempts_from_S, query_loop_step, Hok.
  rewrite <- app_assoc, repeat_snoc. reflexivity.
Qed.

(** When every attempt fails, the last exception decides the error. *)
Lemma query_loop_exhaust (e : exc) (log : list request) :
  (1 <= max_retries)%Z ->
  (forall t, (t < Z.to_nat max_retries - 1)%nat ->
     exists e', attempt_result (server (log ++ repeat req t) req) = Raise e') ->
  attempt_result
    (server (log ++ repeat req (Z.to_nat max_retries - 1)) req) = Raise e ->
  query_ollama server p max_retries log =
  (Raise (final_error e), log ++ repeat req (Z.to_nat max_retries)).
Proof.
  intros Hm Hfail Hlast. unfold query_ollama, range.
  change (map Z.of_nat (seq 0 (Z.to_nat max_retries)))
    with (attempts_from 0 (Z.to_nat max_retries)).
  rewrite (@query_loop_skip (Z.to_nat max_retries - 1) 0
             (Z.to_nat max_retries) log); try lia; auto.
  replace (Z.to_nat max_retries - (Z.to_nat max_retries - 1))%nat
    with 1%nat by lia.
  rewrite attempts_from_S, query_loop_step, Hlast.
  destruct (Z.eqb_spec (Z.of_nat (0 + (Z.to_nat max_retries - 1)))
              (max_retries - 1)) as [_|Hk]; [|lia].
  rewrite <- app_assoc, repeat_snoc.
  replace (S (Z.to_nat max_retries - 1)) with (Z.to_nat max_retries) by lia.
  reflexivity.
Qed.

(** With no attempt to make, the loop body never runs. *)
Lemma query_ollama_no_attempt (log : list request) :
  (max_retries <= 0)%Z ->
  query_ollama server p max_retries log = (Return PyNone, log).
Proof.
  intros Hm. unfold query_ollama, range.
  replace (Z.to_nat max_retries) with 0%nat by lia. reflexivity.
Qed.

(** The shape of every run with at least one attempt: some number [n] of
    requests, all for the same prompt; either attempt [n] succeeded, or
    all [max_retries] attempts failed. *)
Lemma query_ollama_shape (log : list request) :
  (1 <= max_retries)%Z ->
  exists n, (1 <= n <= Z.to_nat max_retries)%nat /\
    ((exists v,
        attempt_result (server (log ++ repeat req (n - 1)) req) = Return v /\
        query_ollama server p max_retries log =
        (Return v, log ++ repeat req n))
     \/
     (exists e,
        n = Z.to_nat max_retries /\
        attempt_result (server (log ++ repeat req (n - 1)) req) = Raise e /\
        query_ollama server p max_retries log =
        (Raise (final_error e), log ++ repeat req n))).
Proof.
  intros Hm.
  assert (Hind : forall i, (i <= Z.to_nat max_retries)%nat ->
    (forall t, (t < i)%nat ->
       exists e, attempt_result (server (log ++ repeat req t) req) = Raise e)
    \/ exists t, (t < i)%nat /\
         (forall u, (u < t)%nat ->
            exists e, attempt_result (server (log ++ repeat req u) req) = Raise e)
         /\ exists v, attempt_result (server (log ++ repeat req t) req) = Return v).
  { induction i as [|i IH]; intros Hi.
    - left. intros t Ht. lia.
    - destruct IH as [Hall | Hsome]; [lia| |].
      + destruct (attempt_result (server (log ++ repeat req i) req)) as [v|e] eqn:Hi'.
        * right. exists i. repeat split; [lia | exact Hall | exists v; exact Hi'].
        * left. intros t Ht.
          destruct (Nat.eq_dec t i) as [->|Hne]; [exists e; exact Hi'|].
          apply Hall. lia.
      + right. destruct Hsome as [t [Ht H]]. exists t. split; [lia | exact H]. }
  destruct (Hind (Z.to_nat max_retries) (le_n _)) as [Hall | [t [Ht [Hpre [v Hv]]]]].
  - destruct (Hall (Z.to_nat max_retries - 1)%nat ltac:(lia)) as [e He].
    exists (Z.to_nat max_retries). split; [lia|]. right. exists e.
    repeat split; [exact He|].
    apply query_loop_exhaust; auto. intros u Hu. apply Hall. lia.
  - exists (S t). split; [lia|]. left. exists v.
    replace (S t - 1)%nat with t by lia. split; [exact Hv|].
    apply query_loop_success; auto. lia.
Qed.

End Loop.

(** ** The inference client *)

Lemma attempt_result_return (o : outcome) (v : pyval) :
  attempt_result o = Return v ->
  exists r, o = Responds r /\ read_answer r = Return v.
Proof.
  destruct o as [e|r]; simpl; [discriminate|].
  intros H. exists r. split; [reflexivity | exact H].
Qed.

Lemma query_ollama_raises server p max_retries log e log' :
  query_ollama server p max_retries log = (Raise e, log') ->
  isinstance e HTTPExceptionClass = true /\
  log' = log ++ repeat (generate_request p) (Z.to_nat max_retries).
Proof.
  intros H. destruct (Z_le_gt_dec max_retries 0) as [Hm|Hm].
  - rewrite query_ollama_no_attempt in H by exact Hm. discriminate.
  - destruct (@query_ollama_shape server p max_retries log ltac:(lia))
      as [n [Hn [[v [_ Hq]] | [e' [-> [_ Hq]]]]]];
      rewrite Hq in H; [discriminate|].
    injection H as <- <-. split; [|reflexivity].
    destruct (final_error_http e') as [-> | [-> | ->]]; reflexivity.
Qed.

Lemma query_ollama_returns server p max_retries log v log' :
  query_ollama server p max_retries log = (Return v, log') ->
  exists n, (n <= Z.to_nat max_retries)%nat /\
            log' = log ++ repeat (generate_request p) n.
Proof.
  intros H. destruct (Z_le_gt_dec max_retries 0) as [Hm|Hm].
  - rewrite query_ollama_no_attempt in H by exact Hm.
    injection H as _ <-. exists 0%nat. simpl. rewrite app_nil_r.
    split; [lia | reflexivity].
  - destruct (@query_ollama_shape server p max_retries log ltac:(lia))
      as [n [Hn [[v' [_ Hq]] | [e' [_ [_ Hq]]]]]];
      rewrite Hq in H; [|discriminate].
    injection H as _ <-. exists n. split; [lia | reflexivity].
Qed.

(** C2, as amended.  When every one of the [max_retries >= 1] attempts
    raises the same exception, [query_ollama] sends exactly [max_retries]
    requests and then raises: 503 when the exception is a connection error
    (a refused connection, and also a timeout while connecting), 504 when
    it is a timeout that is not a connection error. *)
Theorem query_ollama_exhausts_retries
  (server : transport) (p : str) (max_retries : Z) (log : list request)
  (e : exc) :
  (1 <= max_retries)%Z ->
  (forall t, (t < Z.to_nat max_retries)%nat ->
     server (log ++ repeat (generate_request p) t) (generate_request p)
     = Raises e) ->
  let sent := log ++ repeat (generate_request p) (Z.to_nat max_retries) in
  (isinstance e ConnectionErrorClass = true ->
   query_ollama server p max_retries log
   = (Raise (HTTPException 503 unreachable_detail), sent))
  /\
  (isinstance e ConnectionErrorClass = false ->
   isinstance e TimeoutClass = true ->
   query_ollama server p max_retries log
   = (Raise (HTTPException 504 timed_out_detail), sent)).
Proof.
  intros Hm Hall sent.
  assert (Hq : query_ollama server p max_retries log
               = (Raise (final_error e), sent)).
  { apply query_loop_exhaust; [exact Hm | |].
    - intros t Ht. exists e. rewrite Hall by lia. reflexivity.
    - rewrite Hall by lia. reflexivity. }
  rewrite Hq. unfold final_error. split.
  - intros ->. reflexivity.
  - intros -> ->. reflexivity.
Qed.

Lemma query_ollama_exhausts_retries_witness :
  query_ollama (always (Raises ConnectionError)) (of_string "ok") 3 []
  = (Raise (HTTPException 503 unreachable_detail),
     repeat (generate_request (of_string "ok")) 3)
  /\
  query_ollama (always (Raises ReadTimeout)) (of_string "ok") 3 []
  = (Raise (HTTPException 504 timed_out_detail),
     repeat (generate_request (of_string "ok")) 3).
Proof.
  split.
  - apply (@query_ollama_exhausts_retries
             (always (Raises ConnectionError)) (of_string "ok") 3 []
             ConnectionError); [lia | reflexivity | reflexivity].
  - apply (@query_ollama_exhausts_retries
             (always (Raises ReadTimeout)) (of_string "ok") 3 []
             ReadTimeout); [lia | reflexivity | reflexivity | reflexivity].
Defined.

(** C2, as stated, fails: a timeout while connecting is a timeout condition,
    yet after three attempts it surfaces as 503 and not as 504. *)
Lemma connect_timeout_is_not_504 :
  ~ (forall (server : transport) (p : str) (max_retries : Z)
            (log : list request) (e : exc),
       (1 <= max_retries)%Z ->
       isinstance e TimeoutClass = true ->
       (forall t, (t < Z.to_nat max_retries)%nat ->
          server (log ++ repeat (generate_request p) t) (generate_request p)
          = Raises e) ->
       query_ollama server p max_retries log
       = (Raise (HTTPException 504 timed_out_detail),
          log ++ repeat (generate_request p) (Z.to_nat max_retries))).
Proof.
  intros H.
  specialize (H (always (Raises ConnectTimeout)) (of_string "ok") 3%Z []
                ConnectTimeout ltac:(lia) eq_refl (fun _ _ => eq_refl)).
  vm_compute in H. discriminate H.
Qed.

(** C3, as amended.  Whenever [query_ollama] returns a string, the last
    request it sent was answered with a non-error status and a JSON object,
    and the string is the text of the response field with leading and
    trailing whitespace stripped, or the empty string when the object has
    no response field. *)
Theorem query_ollama_returns_stripped_text
  (server : transport) (p : str) (max_retries : Z)
  (log log' : list request) (s : str) :
  query_ollama server p max_retries log = (Return (PyStr s), log') ->
  exists (sent : list request) (r : response) (fields : list (str * json)),
    log' = sent ++ [generate_request p] /\
    server sent (generate_request p) = Responds r /\
    raise_for_status r = Return tt /\
    body r = Some (JObject fields) /\
    ((exists text,
        lookup (of_string "response") fields = Some (JString text) /\
        s = strip text)
     \/ (lookup (of_string "response") fields = None /\ s = [])).
Proof.
  intros Hq.
  destruct (Z_le_gt_dec max_retries 0) as [Hm|Hm].
  { rewrite query_ollama_no_attempt in Hq by exact Hm. discriminate. }
  destruct (@query_ollama_shape server p max_retries log ltac:(lia))
    as [n [Hn [[v' [Hv Hq']] | [e [_ [_ Hq']]]]]];
    rewrite Hq' in Hq; [|discriminate].
  injection Hq as -> <-.
  destruct (attempt_result_return _ Hv) as [r [Hr Hread]].
  destruct (read_answer_return _ Hread) as [Hstatus [fields [Hbody Hcases]]].
  exists (log ++ repeat (generate_request p) (n - 1)), r, fields.
  repeat split; try assumption.
  - rewrite <- app_assoc, repeat_snoc. do 2 f_equal. lia.
  - destruct Hcases as [[text [Hl Hs]] | [Hl Hs]].
    + left. exists text. split; [exact Hl | congruence].
    + right. split; [exact Hl | congruence].
Qed.

Lemma query_ollama_returns_stripped_text_witness :
  exists (sent : list request) (r : response) (fields : list (str * json)),
    [generate_request (of_string "ok")] = sent ++ [generate_request (of_string "ok")] /\
    always (Responds (ok_text "  Positive ")) sent
           (generate_request (of_string "ok")) = Responds r /\
    raise_for_status r = Return tt /\
    body r = Some (JObject fields) /\
    ((exists text,
        lookup (of_string "response") fields = Some (JString text) /\
        of_string "Positive" = strip text)
     \/ (lookup (of_string "response") fields = None /\
         of_string "Positive" = [])).
Proof.
  apply (@query_ollama_returns_stripped_text
           (always (Responds (ok_text "  Positive "))) (of_string "ok") 3 []).
  reflexivity.
Defined.

(** C3, as stated, fails: the answer is not handed back as received.  A
    response text with a space on either side comes back without them. *)
Lemma query_ollama_trims_the_answer :
  let raw := of_string " Positive " in
  let server := always (Responds (ok_object [(of_string "response", JString raw)])) in
  fst (query_ollama server (of_string "ok") 3 [])
  = Return (PyStr (of_string "Positive"))
  /\ fst (query_ollama server (of_string "ok") 3 []) <> Return (PyStr raw).
Proof.
  split; [reflexivity | vm_compute; discriminate].
Qed.

(** C4.  If the HTTP exchange raises on the first [N - 1] attempts and
    attempt [N <= max_retries] is answered with a response that reads as
    [v], then [query_ollama] returns [v], after exactly [N] requests and
    without raising. *)
Theorem query_ollama_recovers
  (server : transport) (p : str) (max_retries : Z) (N : nat)
  (log : list request) (r : response) (v : pyval) :
  (1 <= N)%nat ->
  (Z.of_nat N <= max_retries)%Z ->
  (forall t, (t < N - 1)%nat ->
     exists e,
       server (log ++ repeat (generate_request p) t) (generate_request p)
       = Raises e) ->
  server (log ++ repeat (generate_request p) (N - 1)) (generate_request p)
  = Responds r ->
  read_answer r = Return v ->
  query_ollama server p max_retries log
  = (Return v, log ++ repeat (generate_request p) N).
Proof.
  intros HN Hle Hfail Hok Hread.
  destruct N as [|i]; [lia|].
  replace (S i - 1)%nat with i in * by lia.
  apply query_loop_success.
  - lia.
  - intros t Ht. destruct (Hfail t Ht) as [e He].
    exists e. rewrite He. reflexivity.
  - rewrite Hok. exact Hread.
Qed.

Lemma query_ollama_recovers_witness :
  query_ollama
    (scripted [Raises ConnectionError; Raises ReadTimeout;
               Responds (ok_text "Negative")])
    (of_string "ok") 3 []
  = (Return (PyStr (of_string "Negative")),
     [] ++ repeat (generate_request (of_string "ok")) 3).
Proof.
  apply (@query_ollama_recovers _ (of_string "ok") 3 3 []
           (ok_text "Negative")).
  - lia.
  - lia.
  - intros [|[|t]] Ht.
    + exists ConnectionError. reflexivity.
    + exists ReadTimeout. reflexivity.
    + exfalso. simpl in Ht. lia.
  - reflexivity.
  - reflexivity.
Defined.

(** C9.  [query_ollama] returns [None] exactly when [max_retries] is not
    positive, and then it sends nothing; with [max_retries >= 1] it returns
    a string or raises one of its three HTTP errors. *)
Theorem query_ollama_none_without_attempts
  (server : transport) (p : str) (max_retries : Z) (log : list request) :
  ((max_retries <= 0)%Z ->
   query_ollama server p max_retries log = (Return PyNone, log))
  /\
  ((1 <= max_retries)%Z ->
   (exists s, fst (query_ollama server p max_retries log) = Return (PyStr s))
   \/ fst (query_ollama server p max_retries log)
      = Raise (HTTPException 503 unreachable_detail)
   \/ fst (query_ollama server p max_retries log)
      = Raise (HTTPException 504 timed_out_detail)
   \/ fst (query_ollama server p max_retries log)
      = Raise (HTTPException 500 model_error_detail)).
Proof.
  split; intros Hm.
  - apply query_ollama_no_attempt. exact Hm.
  - destruct (@query_ollama_shape server p max_retries log Hm)
      as [n [Hn [[v [Hv Hq]] | [e [_ [_ Hq]]]]]]; rewrite Hq; simpl.
    + left. destruct (attempt_result_return _ Hv) as [r [_ Hread]].
      destruct (read_answer_return _ Hread)
        as [_ [fields [_ [[text [_ ->]] | [_ ->]]]]]; eexists; reflexivity.
    + right. destruct (final_error_http e) as [-> | [-> | ->]]; tauto.
Qed.

Lemma query_ollama_none_without_attempts_witness :
  query_ollama (always (Responds (ok_text "Positive"))) (of_string "ok") 0 []
  = (Return PyNone, [])
  /\
  query_ollama (always (Responds (ok_text "Positive"))) (of_string "ok") (-2) []
  = (Return PyNone, []).
Proof.
  split.
  - apply (proj1 (@query_ollama_none_without_attempts
                    (always (Responds (ok_text "Positive")))
                    (of_string "ok") 0 [])). lia.
  - apply (proj1 (@query_ollama_none_without_attempts
                    (always (Responds (ok_text "Positive")))
                    (of_string "ok") (-2) [])). lia.
Defined.

(** ** The health probe *)

(** C8, as amended.  [health_check] never raises.  It sends one request to
    the tags endpoint and answers unhealthy when that request raises,
    whatever the exception, or comes back with a 4xx or 5xx status; it
    answers healthy exactly when a response with any other status comes
    back. *)
Theorem health_check_never_raises (server : transport) (log : list request) :
  (forall e, fst (health_check server log) <> Raise e)
  /\ snd (health_check server log) = log ++ [tags_request]
  /\ (forall e, server log tags_request = Raises e ->
        fst (health_check server log) = Return unhealthy)
  /\ (forall r, server log tags_request = Responds r ->
        (400 <= status_code r < 600)%Z ->
        fst (health_check server log) = Return unhealthy)
  /\ (fst (health_check server log) = Return healthy <->
      exists r, server log tags_request = Responds r /\
                ~ (400 <= status_code r < 600)%Z).
Proof.
  unfold health_check, try_except, bind, send, lift, ret, raise_for_status.
  destruct (server log tags_request) as [e|r]; simpl.
  - repeat split; try discriminate; try reflexivity.
    intros [r [H _]]. discriminate.
  - destruct (Z.leb_spec 400 (status_code r));
      destruct (Z.ltb_spec (status_code r) 600); simpl;
      repeat split; try discriminate; try reflexivity;
      try (intros r' Hr' Hs; injection Hr' as <-; lia);
      try (intros [r' [Hr' Hs]]; injection Hr' as <-; lia);
      try (intros _; exists r; split; [reflexivity | lia]).
Qed.

Lemma health_check_never_raises_witness :
  fst (health_check (always (Raises (OtherException "TooManyRedirects"))) [])
  = Return unhealthy
  /\
  fst (health_check (always (Responds {| status_code := 503; body := None |})) [])
  = Return unhealthy.
Proof.
  split.
  - apply (proj1 (proj2 (proj2
      (health_check_never_raises
         (always (Raises (OtherException "TooManyRedirects"))) [])))
      (OtherException "TooManyRedirects")).
    reflexivity.
  - apply (proj1 (proj2 (proj2 (proj2
      (health_check_never_raises
         (always (Responds {| status_code := 503; body := None |})) []))))
      {| status_code := 503; body := None |}).
    + reflexivity.
    + simpl. lia.
Defined.

(** C8, as stated, fails on the statuses: a response that is not a 2xx one
    does not always make the probe unhealthy.  A 304 does not raise in
    [raise_for_status], and the probe answers healthy. *)
Lemma health_check_healthy_on_304 :
  ~ (forall (server : transport) (log : list request) (r : response),
       server log tags_request = Responds r ->
       ~ (200 <= status_code r < 300)%Z ->
       fst (health_check server log) = Return unhealthy).
Proof.
  intros H.
  specialize (H (always (Responds {| status_code := 304; body := None |}))
                [] {| status_code := 304; body := None |} eq_refl).
  simpl in H. specialize (H ltac:(lia)).
  vm_compute in H. discriminate H.
Qed.

(** ** Cleaning up an answer *)

Lemma clean_ends_trimmed (s : str) : clean_ends s = true -> trimmed s.
Proof.
  destruct s as [|c s]; unfold clean_ends.
  - intros _. split; intros d t H; [discriminate|].
    destruct t; discriminate.
  - intros H. apply andb_true_iff in H as [Hc Hl].
    apply negb_true_iff in Hc, Hl. split; intros d t H.
    + injection H as <- _. exact Hc.
    + rewrite H, last_last in Hl. exact Hl.
Qed.

(** C6.  The clean-up applied to an answer returns its first line, the
    text before the first newline, with the whitespace at both ends
    removed.  Nothing is checked against a vocabulary: a label without a
    newline and without whitespace at its ends comes back unchanged.  The
    two-line answer starting with Positive gives Positive. *)
Theorem clean_up_first_line_stripped :
  (forall raw : str,
     exists line pre post,
       clean_up (PyStr raw) = Return (strip line) /\
       ~ In newline line /\
       (raw = line \/ exists rest, raw = line ++ newline :: rest) /\
       line = pre ++ strip line ++ post /\
       forallb isspace pre = true /\
       forallb isspace post = true /\
       trimmed (strip line))
  /\
  (forall label : str,
     ~ In newline label -> clean_ends label = true ->
     clean_up (PyStr label) = Return label)
  /\
  clean_up (PyStr (of_string "Positive" ++ [newline]
                   ++ of_string "Because the item arrived quickly"))
  = Return (of_string "Positive").
Proof.
  assert (Hclean : forall raw,
            clean_up (PyStr raw) = Return (strip (before newline raw))).
  { intros raw. unfold clean_up.
    destruct (split_before newline raw) as [rest ->]. reflexivity. }
  split; [|split].
  - intros raw.
    destruct (before_spec newline raw) as [Hin Hraw].
    destruct (strip_split (before newline raw)) as [pre [post [Heq [Hpre Hpost]]]].
    exists (before newline raw), pre, post.
    repeat split; try assumption; try apply strip_trimmed. apply Hclean.
  - intros label Hnl Hends. rewrite Hclean, before_fixed by exact Hnl.
    rewrite strip_fixed; [reflexivity | apply clean_ends_trimmed; exact Hends].
  - reflexivity.
Qed.

Lemma clean_up_first_line_stripped_witness :
  clean_up (PyStr (of_string "Mixed")) = Return (of_string "Mixed").
Proof.
  apply (proj1 (proj2 clean_up_first_line_stripped) (of_string "Mixed")).
  - intros H. simpl in H. repeat destruct H as [H|H]; try discriminate H; exact H.
  - reflexivity.
Defined.

(** ** The prompts *)

Lemma substring_app (t s a b : str) :
  substring t s -> substring t (a ++ s ++ b).
Proof.
  intros [pre [post ->]]. exists (a ++ pre), (post ++ b).
  repeat rewrite <- app_assoc. reflexivity.
Qed.

Lemma review_block_embeds (text : str) : substring text (review_block text).
Proof.
  exists ([newline; newline] ++ of_string "Review: " ++ [dquote]),
         ([dquote] ++ [newline; newline]).
  unfold review_block. repeat rewrite <- app_assoc. reflexivity.
Qed.

(** C7.  Each of the three prompts contains the review text verbatim, and
    the sentiment prompt asks for one word out of Positive, Neutral and
    Negative. *)
Theorem prompts_embed_review (text : str) :
  substring text (sentiment_prompt text)
  /\ substring text (topic_prompt text)
  /\ substring text (summary_prompt text)
  /\ substring
       (of_string "respond with only one word: Positive, Neutral, or Negative.")
       (sentiment_prompt text).
Proof.
  repeat split.
  - unfold sentiment_prompt. rewrite app_assoc.
    apply substring_app, review_block_embeds.
  - unfold topic_prompt. repeat rewrite (app_assoc _ _ (review_block text ++ _)).
    apply substring_app, review_block_embeds.
  - unfold summary_prompt. apply substring_app, review_block_embeds.
  - unfold sentiment_prompt.
    eexists _, _. reflexivity.
Qed.

(** ** Analysing one review *)

Lemma prompts_differ (text : str) :
  sentiment_prompt text <> topic_prompt text /\
  sentiment_prompt text <> summary_prompt text /\
  topic_prompt text <> summary_prompt text.
Proof.
  repeat split; intros H; apply (f_equal (hd 0%N)) in H;
    vm_compute in H; discriminate H.
Qed.

Lemma generate_request_inj (p q : str) :
  generate_request p = generate_request q -> p = q.
Proof. intros H. injection H as H. exact H. Qed.

(** Past the emptiness test, [analyze_review] is its [try] block. *)
Lemma analyze_review_nonblank server (text : str) (log : list request) :
  forallb isspace text = false ->
  analyze_review server text log =
  try_except
    (sentiment <- query_ollama server (sentiment_prompt text) default_max_retries ;;
     topic <- query_ollama server (topic_prompt text) default_max_retries ;;
     summary <- query_ollama server (summary_prompt text) default_max_retries ;;
     sentiment_clean <- lift (clean_up sentiment) ;;
     topic_clean <- lift (clean_up topic) ;;
     summary_clean <- lift (clean_up summary) ;;
     ret {| sentiment := sentiment_clean;
            topic := topic_clean;
            summary := summary_clean |})
    (fun e =>
       if isinstance e HTTPExceptionClass then raise e
       else raise (HTTPException 500 internal_error_detail)) log.
Proof.
  intros H. unfold analyze_review. rewrite truthy_strip, H. reflexivity.
Qed.

(** C5.  A review text that is empty or all whitespace is rejected with the
    400 error, and the log of requests is left as it was: nothing is sent. *)
Theorem analyze_review_rejects_blank
  (server : transport) (text : str) (log : list request) :
  forallb isspace text = true ->
  analyze_review server text log
  = (Raise (HTTPException 400 empty_input_detail), log).
Proof.
  intros H. unfold analyze_review. rewrite truthy_strip, H. reflexivity.
Qed.

Lemma analyze_review_rejects_blank_witness :
  analyze_review (always (Responds (ok_text "Positive")))
                 [32; 9; 10; 160; 8195]%N []
  = (Raise (HTTPException 400 empty_input_detail), [])
  /\
  analyze_review (always (Responds (ok_text "Positive"))) [] []
  = (Raise (HTTPException 400 empty_input_detail), []).
Proof.
  split.
  - apply (@analyze_review_rejects_blank
             (always (Responds (ok_text "Positive")))
             [32; 9; 10; 160; 8195]%N []).
    reflexivity.
  - apply (@analyze_review_rejects_blank
             (always (Responds (ok_text "Positive"))) [] []).
    reflexivity.
Defined.

(** C1.  For a review text that passes the emptiness test: when the
    sentiment, the topic or the summary query raises, [analyze_review]
    raises that very exception and stops with the log as that query left
    it, so no later query is sent and no result is returned.  When the
    topic query is the one that fails, the requests sent are those of the
    sentiment query followed by the three topic attempts, and none of them
    is a summary request; this covers a topic query failing with the 500
    model error. *)
Theorem analyze_review_aborts_on_first_failure
  (server : transport) (text : str) (log : list request) :
  forallb isspace text = false ->
  let query p l := query_ollama server p default_max_retries l in
  let sentiment_request := generate_request (sentiment_prompt text) in
  let topic_request := generate_request (topic_prompt text) in
  let summary_request := generate_request (summary_prompt text) in
  (forall e l1,
     query (sentiment_prompt text) log = (Raise e, l1) ->
     analyze_review server text log = (Raise e, l1) /\
     l1 = log ++ repeat sentiment_request 3)
  /\
  (forall v1 l1 e l2,
     query (sentiment_prompt text) log = (Return v1, l1) ->
     query (topic_prompt text) l1 = (Raise e, l2) ->
     analyze_review server text log = (Raise e, l2) /\
     exists n, (n <= 3)%nat /\
       l2 = log ++ repeat sentiment_request n ++ repeat topic_request 3 /\
       ~ In summary_request (repeat sentiment_request n ++ repeat topic_request 3))
  /\
  (forall v1 l1 v2 l2 e l3,
     query (sentiment_prompt text) log = (Return v1, l1) ->
     query (topic_prompt text) l1 = (Return v2, l2) ->
     query (summary_prompt text) l2 = (Raise e, l3) ->
     analyze_review server text log = (Raise e, l3)).
Proof.
  intros Htext query sentiment_request topic_request summary_request.
  subst query. cbv beta.
  split; [|split].
  - intros e l1 H1.
    destruct (query_ollama_raises _ _ _ _ H1) as [He Hl].
    split; [|exact Hl].
    rewrite (analyze_review_nonblank _ _ _ Htext).
    unfold try_except, bind. rewrite H1, He. reflexivity.
  - intros v1 l1 e l2 H1 H2.
    destruct (query_ollama_raises _ _ _ _ H2) as [He Hl2].
    destruct (query_ollama_returns _ _ _ _ H1) as [n [Hn Hl1]].
    split.
    + rewrite (analyze_review_nonblank _ _ _ Htext).
      unfold try_except, bind. rewrite H1, H2, He. reflexivity.
    + exists n. split; [exact Hn|]. split.
      * rewrite Hl2, Hl1, <- app_assoc. reflexivity.
      * destruct (prompts_differ text) as [_ [Hsm Htm]].
        intros Hin. apply in_app_or in Hin as [Hin|Hin];
          apply repeat_spec in Hin; apply generate_request_inj in Hin;
          congruence.
  - intros v1 l1 v2 l2 e l3 H1 H2 H3.
    destruct (query_ollama_raises _ _ _ _ H3) as [He _].
    rewrite (analyze_review_nonblank _ _ _ Htext).
    unfold try_except, bind. rewrite H1, H2, H3, He. reflexivity.
Qed.

(** The server of the witness below: the sentiment query is answered at
    once, every topic attempt meets a 500 status. *)
Lemma analyze_review_aborts_on_first_failure_witness :
  let server :=
    scripted [Responds (ok_text "Positive");
              Responds {| status_code := 500; body := None |};
              Responds {| status_code := 500; body := None |};
              Responds {| status_code := 500; body := None |};
              Responds (ok_text "never asked for")] in
  let text := of_string "Great phone but shipping took 3 weeks" in
  let l1 := [generate_request (sentiment_prompt text)] in
  let l2 := l1 ++ repeat (generate_request (topic_prompt text)) 3 in
  analyze_review server text []
  = (Raise (HTTPException 500 model_error_detail), l2)
  /\ exists n, (n <= 3)%nat /\
       l2 = [] ++ repeat (generate_request (sentiment_prompt text)) n
               ++ repeat (generate_request (topic_prompt text)) 3 /\
       ~ In (generate_request (summary_prompt text))
            (repeat (generate_request (sentiment_prompt text)) n
             ++ repeat (generate_request (topic_prompt text)) 3).
Proof.
  intros server text l1 l2.
  apply (proj1 (proj2
    (@analyze_review_aborts_on_first_failure server text [] eq_refl))
    (PyStr (of_string "Positive")) l1
    (HTTPException 500 model_error_detail) l2).
  - reflexivity.
  - reflexivity.
Defined.

Lemma read_empty_answer (r : response) :
  empty_answer r -> read_answer r = Return (PyStr []).
Proof.
  intros [Hs [fields [Hb Hl]]].
  unfold read_answer, response_json, dict_get, json_strip.
  rewrite Hs, Hb. destruct Hl as [-> | ->]; reflexivity.
Qed.

Lemma query_ollama_first_attempt
  server (p : str) (log : list request) (r : response) (v : pyval)
  (max_retries : Z) :
  server log (generate_request p) = Responds r ->
  read_answer r = Return v ->
  (1 <= max_retries)%Z ->
  query_ollama server p max_retries log = (Return v, log ++ [generate_request p]).
Proof.
  intros Hr Hv Hm.
  apply (@query_loop_success server p max_retries 0 v log).
  - lia.
  - intros t Ht. lia.
  - simpl. rewrite app_nil_r, Hr. exact Hv.
Qed.

(** C10.  When each of the three queries is answered at its first attempt
    with a non-error status and a JSON object whose response field is
    missing or empty, [analyze_review] returns the result whose three
    fields are the empty string, having sent exactly three requests, one
    per prompt: nothing is raised and nothing is retried. *)
Theorem analyze_review_empty_answers
  (server : transport) (text : str) (log : list request)
  (r1 r2 r3 : response) :
  forallb isspace text = false ->
  let sentiment_request := generate_request (sentiment_prompt text) in
  let topic_request := generate_request (topic_prompt text) in
  let summary_request := generate_request (summary_prompt text) in
  server log sentiment_request = Responds r1 ->
  server (log ++ [sentiment_request]) topic_request = Responds r2 ->
  server (log ++ [sentiment_request; topic_request]) summary_request
  = Responds r3 ->
  empty_answer r1 -> empty_answer r2 -> empty_answer r3 ->
  analyze_review server text log
  = (Return {| sentiment := []; topic := []; summary := [] |},
     log ++ [sentiment_request; topic_request; summary_request]).
Proof.
  intros Htext rs rt rm H1 H2 H3 E1 E2 E3.
  assert (Hm : (1 <= default_max_retries)%Z) by (unfold default_max_retries; lia).
  pose proof (query_ollama_first_attempt server (sentiment_prompt text)
                log H1 (read_empty_answer E1) Hm) as Q1.
  pose proof (query_ollama_first_attempt server (topic_prompt text)
                (log ++ [rs]) H2 (read_empty_answer E2) Hm) as Q2.
  assert (H3' : server ((log ++ [rs]) ++ [rt]) rm = Responds r3)
    by (rewrite <- app_assoc; exact H3).
  pose proof (query_ollama_first_attempt server (summary_prompt text)
                ((log ++ [rs]) ++ [rt]) H3' (read_empty_answer E3) Hm) as Q3.
  rewrite (analyze_review_nonblank _ _ _ Htext).
  subst rs rt rm. unfold try_except, bind. rewrite Q1, Q2, Q3.
  simpl. repeat rewrite <- app_assoc. reflexivity.
Qed.

Lemma analyze_review_empty_answers_witness :
  let server :=
    scripted [Responds (ok_object []);
              Responds (ok_text "");
              Responds (ok_object [(of_string "done", JBool true)])] in
  let text := of_string "Great phone" in
  analyze_review server text []
  = (Return {| sentiment := []; topic := []; summary := [] |},
     [] ++ [generate_request (sentiment_prompt text);
            generate_request (topic_prompt text);
            generate_request (summary_prompt text)]).
Proof.
  intros server text.
  apply (@analyze_review_empty_answers server text []
           (ok_object []) (ok_text "")
           (ok_object [(of_string "done", JBool true)])).
  - reflexivity.
  - reflexivity.
  - reflexivity.
  - reflexivity.
  - split; [reflexivity|]. exists []. split; [reflexivity | left; reflexivity].
  - split; [reflexivity|]. eexists. split; [reflexivity | right; reflexivity].
  - split; [reflexivity|]. eexists. split; [reflexivity | left; reflexivity].
Defined.

(** ** A complete run *)

(** Three answers, one per prompt, the first with an explanation on a
    second line: the result holds the three cleaned-up answers and three
    requests were sent. *)
Example analyze_review_end_to_end :
  let server :=
    scripted
      [Responds (ok_object
         [(of_string "response",
           JString (of_string " Negative" ++ [newline]
                    ++ of_string "The delivery was slow."))]);
       Responds (ok_text "Delivery/Shipping  ");
       Responds (ok_text "Fast phone, slow delivery.")] in
  let text := of_string "Great phone but shipping took 3 weeks" in
  analyze_review server text []
  = (Return {| sentiment := of_string "Negative";
               topic := of_string "Delivery/Shipping";
               summary := of_string "Fast phone, slow delivery." |},
     [generate_request (sentiment_prompt text);
      generate_request (topic_prompt text);
      generate_request (summary_prompt text)]).
Proof. reflexivity. Qed.

(** ** More on the inference client *)

Lemma strip_keeps (s : str) (c : char) : In c (strip s) -> In c s.
Proof.
  intros H. destruct (strip_split s) as [pre [post [Heq _]]].
  rewrite Heq. apply in_or_app. right. apply in_or_app. left. exact H.
Qed.

Lemma read_answer_trimmed (r : response) (v : pyval) :
  read_answer r = Return v -> exists s, v = PyStr s /\ trimmed s.
Proof.
  intros H. destruct (read_answer_return _ H)
    as [_ [fields [_ [[text [_ ->]] | [_ ->]]]]].
  - exists (strip text). split; [reflexivity | apply strip_trimmed].
  - exists []. split; [reflexivity | exact (strip_trimmed [])].
Qed.

(** Every run with at least one attempt: between one and [max_retries]
    requests for the prompt, then a trimmed string or an HTTP error. *)
Lemma query_ollama_run server (p : str) (max_retries : Z) (log : list request) :
  (1 <= max_retries)%Z ->
  exists n, (1 <= n <= Z.to_nat max_retries)%nat /\
    snd (query_ollama server p max_retries log)
    = log ++ repeat (generate_request p) n /\
    ((exists s, fst (query_ollama server p max_retries log) = Return (PyStr s)
                /\ trimmed s)
     \/ (n = Z.to_nat max_retries /\
         (fst (query_ollama server p max_retries log)
          = Raise (HTTPException 503 unreachable_detail) \/
          fst (query_ollama server p max_retries log)
          = Raise (HTTPException 504 timed_out_detail) \/
          fst (query_ollama server p max_retries log)
          = Raise (HTTPException 500 model_error_detail)))).
Proof.
  intros Hm.
  destruct (@query_ollama_shape server p max_retries log Hm)
    as [n [Hn [[v [Hv Hq]] | [e [Hmax [_ Hq]]]]]];
    exists n; (split; [exact Hn|]); rewrite Hq; (split; [reflexivity|]).
  - left. destruct (attempt_result_return _ Hv) as [r [_ Hread]].
    destruct (read_answer_trimmed _ Hread) as [s [-> Hs]].
    exists s. split; [reflexivity | exact Hs].
  - right. split; [exact Hmax|]. simpl.
    destruct (final_error_http e) as [-> | [-> | ->]]; tauto.
Qed.

Lemma malformed_unreadable (r : response) :
  malformed r = true ->
  exists e, read_answer r = Raise e /\
            isinstance e ConnectionErrorClass = false /\
            isinstance e TimeoutClass = false.
Proof.
  unfold malformed, read_answer, raise_for_status, response_json, dict_get,
    json_strip.
  destruct ((400 <=? status_code r) && (status_code r <? 600))%Z; simpl.
  - intros _. exists HTTPError. repeat split.
  - destruct (body r) as [[| | | |items|fields]|];
      try (intros _; eexists; repeat split; reflexivity).
    destruct (lookup (of_string "response") fields) as [[| | |text| |]|];
      try discriminate;
      intros _; eexists; repeat split; reflexivity.
Qed.

Lemma readable_not_malformed (r : response) (v : pyval) :
  read_answer r = Return v -> malformed r = false.
Proof.
  intros H. destruct (malformed r) eqn:Hm; [|reflexivity].
  destruct (malformed_unreadable _ Hm) as [e [He _]]. congruence.
Qed.

(** X1.  When every attempt fails, in whatever way, the failure of the last
    attempt alone decides the error: 503 if its exception is a connection
    error, 504 if it is a timeout that is not one, 500 otherwise.  The
    failures before it leave no trace in the result. *)
Theorem query_ollama_last_failure_decides
  (server : transport) (p : str) (max_retries : Z) (log : list request)
  (e : exc) :
  (1 <= max_retries)%Z ->
  (forall t, (t < Z.to_nat max_retries - 1)%nat ->
     exists e',
       attempt_result
         (server (log ++ repeat (generate_request p) t) (generate_request p))
       = Raise e') ->
  attempt_result
    (server (log ++ repeat (generate_request p) (Z.to_nat max_retries - 1))
            (generate_request p))
  = Raise e ->
  query_ollama server p max_retries log
  = (Raise (if isinstance e ConnectionErrorClass
            then HTTPException 503 unreachable_detail
            else if isinstance e TimeoutClass
                 then HTTPException 504 timed_out_detail
                 else HTTPException 500 model_error_detail),
     log ++ repeat (generate_request p) (Z.to_nat max_retries)).
Proof.
  intros Hm Hfail Hlast.
  exact (@query_loop_exhaust server p max_retries e log Hm Hfail Hlast).
Qed.

Lemma query_ollama_last_failure_decides_witness :
  query_ollama
    (scripted [Raises ConnectionError;
               Responds {| status_code := 502; body := None |};
               Raises ReadTimeout])
    (of_string "ok") 3 []
  = (Raise (HTTPException 504 timed_out_detail),
     [] ++ repeat (generate_request (of_string "ok")) (Z.to_nat 3)).
Proof.
  apply (@query_ollama_last_failure_decides _ (of_string "ok") 3 [] ReadTimeout).
  - lia.
  - intros [|[|t]] Ht.
    + exists ConnectionError. reflexivity.
    + exists HTTPError. reflexivity.
    + exfalso. simpl in Ht. lia.
  - reflexivity.
Defined.

(** X2.  Answers the client cannot read are failures like any other: when
    each of the [max_retries >= 1] attempts is answered with an error
    status, a body that is not JSON, a JSON value that is not an object or
    a response field that is not a string (a null, say), the query ends in
    the 500 error after exactly [max_retries] requests. *)
Theorem query_ollama_malformed_answers
  (server : transport) (p : str) (max_retries : Z) (log : list request) :
  (1 <= max_retries)%Z ->
  (forall t, (t < Z.to_nat max_retries)%nat ->
     exists r,
       server (log ++ repeat (generate_request p) t) (generate_request p)
       = Responds r /\ malformed r = true) ->
  query_ollama server p max_retries log
  = (Raise (HTTPException 500 model_error_detail),
     log ++ repeat (generate_request p) (Z.to_nat max_retries)).
Proof.
  intros Hm Hall.
  destruct (Hall (Z.to_nat max_retries - 1)%nat ltac:(lia)) as [r [Hr Hbad]].
  destruct (malformed_unreadable _ Hbad) as [e [He [Hc Ht]]].
  rewrite (@query_loop_exhaust server p max_retries e log Hm).
  - unfold final_error. rewrite Hc, Ht. reflexivity.
  - intros t Ht'. destruct (Hall t ltac:(lia)) as [r' [Hr' Hbad']].
    destruct (malformed_unreadable _ Hbad') as [e' [He' _]].
    exists e'. rewrite Hr'. exact He'.
  - rewrite Hr. exact He.
Qed.

Lemma query_ollama_malformed_answers_witness :
  query_ollama
    (scripted [Responds (ok_object [(of_string "response", JNull)]);
               Responds {| status_code := 200; body := Some (JArray []) |};
               Responds {| status_code := 404; body := Some (JObject []) |}])
    (of_string "ok") 3 []
  = (Raise (HTTPException 500 model_error_detail),
     [] ++ repeat (generate_request (of_string "ok")) (Z.to_nat 3)).
Proof.
  apply (@query_ollama_malformed_answers _ (of_string "ok") 3 []).
  - lia.
  - intros [|[|[|t]]] Ht.
    + eexists. split; reflexivity.
    + eexists. split; reflexivity.
    + eexists. split; reflexivity.
    + exfalso. simpl in Ht. lia.
Defined.

(** X3.  Whatever the server does and whatever [max_retries] is, the
    requests of one query are copies of one and the same request, the one
    for its prompt, and there are at most [max_retries] of them (none when
    [max_retries] is not positive, at least one otherwise). *)
Theorem query_ollama_request_budget
  (server : transport) (p : str) (max_retries : Z) (log : list request) :
  exists n,
    snd (query_ollama server p max_retries log)
    = log ++ repeat (generate_request p) n /\
    (Z.of_nat n <= Z.max 0 max_retries)%Z /\
    (n = 0%nat <-> (max_retries <= 0)%Z).
Proof.
  destruct (Z_le_gt_dec max_retries 0) as [Hm|Hm].
  - exists 0%nat. rewrite query_ollama_no_attempt by exact Hm. simpl.
    rewrite app_nil_r. repeat split; try lia.
  - destruct (@query_ollama_run server p max_retries log ltac:(lia))
      as [n [Hn [Hlog _]]].
    exists n. split; [exact Hlog|]. split; lia.
Qed.

(** X4.  A string returned by [query_ollama] has no whitespace at either
    end, whatever text the server sent. *)
Theorem query_ollama_returns_trimmed
  (server : transport) (p : str) (max_retries : Z)
  (log log' : list request) (s : str) :
  query_ollama server p max_retries log = (Return (PyStr s), log') ->
  trimmed s.
Proof.
  intros H. destruct (Z_le_gt_dec max_retries 0) as [Hm|Hm].
  - rewrite query_ollama_no_attempt in H by exact Hm. discriminate.
  - destruct (@query_ollama_run server p max_retries log ltac:(lia))
      as [n [_ [_ [[s' [Hs' Htr]] | [_ [He | [He | He]]]]]]];
      rewrite H in *; simpl in *; try discriminate.
    injection Hs' as ->. exact Htr.
Qed.

Lemma query_ollama_returns_trimmed_witness :
  trimmed (of_string "Neutral").
Proof.
  apply (@query_ollama_returns_trimmed
           (always (Responds (ok_text "   Neutral  "))) (of_string "ok") 3
           [] [generate_request (of_string "ok")]).
  reflexivity.
Defined.

(** ** More on the analysis of a review *)

Lemma clean_up_str (s : str) : clean_up (PyStr s) = Return (cleaned s).
Proof.
  unfold clean_up, cleaned.
  destruct (split_before newline s) as [rest ->]. reflexivity.
Qed.

Lemma client_error_http (e : exc) :
  client_error e -> isinstance e HTTPExceptionClass = true.
Proof. intros [-> | [-> | ->]]; reflexivity. Qed.

(** One query of [analyze_review], with its three attempts. *)
Lemma query_default server (p : str) (log : list request) :
  exists n, (1 <= n <= 3)%nat /\
    ((exists s, trimmed s /\
        query_ollama server p default_max_retries log
        = (Return (PyStr s), log ++ repeat (generate_request p) n))
     \/ (n = 3%nat /\ exists e, client_error e /\
           query_ollama server p default_max_retries log
           = (Raise e, log ++ repeat (generate_request p) n))).
Proof.
  destruct (@query_ollama_run server p default_max_retries log)
    as [n [Hn [Hlog Hres]]]; [unfold default_max_retries; lia|].
  exists n. split; [exact Hn|].
  destruct (query_ollama server p default_max_retries log) as [res l].
  simpl in Hlog, Hres. subst l.
  destruct Hres as [[s [-> Hs]] | [Hmax Herr]].
  - left. exists s. split; [exact Hs | reflexivity].
  - right. split; [exact Hmax|].
    destruct Herr as [-> | [-> | ->]]; eexists; (split; [|reflexivity]);
      unfold client_error; tauto.
Qed.

(** The four ways a review with a non-blank text can go. *)
Lemma analyze_review_outcomes server (text : str) (log : list request) :
  forallb isspace text = false ->
  let rs := generate_request (sentiment_prompt text) in
  let rt := generate_request (topic_prompt text) in
  let rm := generate_request (summary_prompt text) in
  exists a b c, (a <= 3 /\ b <= 3 /\ c <= 3)%nat /\
    snd (analyze_review server text log)
    = log ++ repeat rs a ++ repeat rt b ++ repeat rm c /\
    ((exists e, client_error e /\
        fst (analyze_review server text log) = Raise e /\
        ((a = 3 /\ b = 0 /\ c = 0) \/ (1 <= a /\ b = 3 /\ c = 0)
         \/ (1 <= a /\ 1 <= b /\ c = 3))%nat)
     \/ (exists s1 s2 s3,
           trimmed s1 /\ trimmed s2 /\ trimmed s3 /\
           (1 <= a /\ 1 <= b /\ 1 <= c)%nat /\
           fst (analyze_review server text log)
           = Return {| sentiment := cleaned s1;
                       topic := cleaned s2;
                       summary := cleaned s3 |})).
Proof.
  intros Htext rs rt rm.
  rewrite (analyze_review_nonblank _ _ _ Htext).
  unfold try_except, bind.
  destruct (query_default server (sentiment_prompt text) log)
    as [a [Ha [[s1 [T1 Q1]] | [Ha3 [e [He Q1]]]]]]; rewrite Q1.
  2:{ exists a, 0%nat, 0%nat. rewrite (client_error_http He). simpl.
      split; [lia|]. split; [rewrite !app_nil_r; reflexivity|].
      left. exists e. split; [exact He|]. split; [reflexivity | lia]. }
  destruct (query_default server (topic_prompt text)
              (log ++ repeat (generate_request (sentiment_prompt text)) a))
    as [b [Hb [[s2 [T2 Q2]] | [Hb3 [e [He Q2]]]]]]; rewrite Q2.
  2:{ exists a, b, 0%nat. rewrite (client_error_http He). simpl.
      split; [lia|]. split; [rewrite !app_nil_r, <- app_assoc; reflexivity|].
      left. exists e. split; [exact He|]. split; [reflexivity | lia]. }
  destruct (query_default server (summary_prompt text)
              ((log ++ repeat (generate_request (sentiment_prompt text)) a)
               ++ repeat (generate_request (topic_prompt text)) b))
    as [c [Hc [[s3 [T3 Q3]] | [Hc3 [e [He Q3]]]]]]; rewrite Q3.
  2:{ exists a, b, c. rewrite (client_error_http He). simpl.
      split; [lia|]. split; [rewrite <- !app_assoc; reflexivity|].
      left. exists e. split; [exact He|]. split; [reflexivity | lia]. }
  exists a, b, c. unfold lift, ret. rewrite !clean_up_str. simpl.
  split; [lia|]. split; [rewrite <- !app_assoc; reflexivity|].
  right. exists s1, s2, s3.
  split; [exact T1|]. split; [exact T2|]. split; [exact T3|].
  split; [lia | reflexivity].
Qed.

Lemma cleaned_single_line (s : str) :
  trimmed (cleaned s) /\ ~ In newline (cleaned s).
Proof.
  unfold cleaned. split; [apply strip_trimmed|].
  intros H. apply strip_keeps in H.
  destruct (before_spec newline s) as [Hin _]. exact (Hin H).
Qed.

(** X5.  The requests of one analysis come in the order of the source:
    sentiment requests, then topic requests, then summary requests, at most
    three of each, so at most nine in all.  A later prompt is only sent
    after an earlier one was, and nothing at all is sent exactly when the
    text is blank. *)
Theorem analyze_review_request_order
  (server : transport) (text : str) (log : list request) :
  exists a b c, (a <= 3 /\ b <= 3 /\ c <= 3)%nat /\
    snd (analyze_review server text log)
    = log ++ repeat (generate_request (sentiment_prompt text)) a
          ++ repeat (generate_request (topic_prompt text)) b
          ++ repeat (generate_request (summary_prompt text)) c /\
    (b <> 0%nat -> a <> 0%nat) /\
    (c <> 0%nat -> b <> 0%nat) /\
    (a = 0%nat <-> forallb isspace text = true).
Proof.
  destruct (forallb isspace text) eqn:Htext.
  - exists 0%nat, 0%nat, 0%nat.
    unfold analyze_review. rewrite truthy_strip, Htext. simpl.
    rewrite app_nil_r. repeat split; try lia; reflexivity.
  - destruct (analyze_review_outcomes server text log Htext)
      as [a [b [c [Hle [Hlog Hres]]]]].
    exists a, b, c. split; [exact Hle|]. split; [exact Hlog|].
    assert (Ha : (1 <= a)%nat).
    { destruct Hres as [[e [_ [_ Hcase]]] | [s1 [s2 [s3 [_ [_ [_ [Hn _]]]]]]]];
        lia. }
    assert (Hcb : (c <> 0 -> b <> 0)%nat).
    { destruct Hres as [[e [_ [_ Hcase]]] | [s1 [s2 [s3 [_ [_ [_ [Hn _]]]]]]]];
        lia. }
    split; [lia|]. split; [exact Hcb|]. split; [lia | discriminate].
Qed.

(** X6.  Whenever [analyze_review] returns a result, the text was not
    blank, each of the three fields is a single line without whitespace at
    its ends, and between three and nine requests were sent. *)
Theorem analyze_review_result_fields
  (server : transport) (text : str) (log log' : list request)
  (res : AnalysisResult) :
  analyze_review server text log = (Return res, log') ->
  forallb isspace text = false /\
  (trimmed (sentiment res) /\ ~ In newline (sentiment res)) /\
  (trimmed (topic res) /\ ~ In newline (topic res)) /\
  (trimmed (summary res) /\ ~ In newline (summary res)) /\
  (3 <= List.length log' - List.length log <= 9)%nat.
Proof.
  intros H. destruct (forallb isspace text) eqn:Htext.
  - unfold analyze_review in H. rewrite truthy_strip, Htext in H.
    discriminate H.
  - split; [reflexivity|].
    destruct (analyze_review_outcomes server text log Htext)
      as [a [b [c [Hle [Hlog Hres]]]]].
    rewrite H in Hlog, Hres. simpl in Hlog, Hres.
    destruct Hres as [[e [_ [He _]]] | [s1 [s2 [s3 [_ [_ [_ [Hn Hr]]]]]]]];
      [discriminate He|].
    injection Hr as ->. simpl.
    repeat (split; [apply cleaned_single_line|]).
    rewrite Hlog. rewrite !length_app, !repeat_length. lia.
Qed.

Lemma analyze_review_result_fields_witness :
  let res := {| sentiment := of_string "Negative";
                topic := of_string "Price/Value";
                summary := of_string "Too expensive." |} in
  forallb isspace (of_string "Costs too much") = false /\
  (trimmed (sentiment res) /\ ~ In newline (sentiment res)) /\
  (trimmed (topic res) /\ ~ In newline (topic res)) /\
  (trimmed (summary res) /\ ~ In newline (summary res)) /\
  (3 <= List.length
          [generate_request (sentiment_prompt (of_string "Costs too much"));
           generate_request (sentiment_prompt (of_string "Costs too much"));
           generate_request (topic_prompt (of_string "Costs too much"));
           generate_request (summary_prompt (of_string "Costs too much"))]
        - List.length (@nil request) <= 9)%nat.
Proof.
  intros res.
  apply (@analyze_review_result_fields
           (scripted [Raises ReadTimeout;
                      Responds (ok_text " Negative ");
                      Responds (ok_text "Price/Value");
                      Responds (ok_object
                        [(of_string "response",
                          JString (of_string "Too expensive." ++ [newline]
                                   ++ of_string "Anything else?"))])])
           (of_string "Costs too much") []).
  reflexivity.
Defined.

Lemma analyze_review_raise_cases
  server (text : str) (log log' : list request) (e : exc) :
  analyze_review server text log = (Raise e, log') ->
  (forallb isspace text = true /\
   e = HTTPException 400 empty_input_detail /\ log' = log)
  \/ (forallb isspace text = false /\ client_error e).
Proof.
  intros H. destruct (forallb isspace text) eqn:Htext.
  - left. unfold analyze_review in H. rewrite truthy_strip, Htext in H.
    simpl in H. unfold raise in H. injection H as <- <-.
    repeat split.
  - right. split; [reflexivity|].
    destruct (analyze_review_outcomes server text log Htext)
      as [a [b [c [_ [_ Hres]]]]].
    rewrite H in Hres. simpl in Hres.
    destruct Hres as [[e' [He' [Heq _]]] | [s1 [s2 [s3 [_ [_ [_ [_ Hr]]]]]]]];
      [|discriminate Hr].
    injection Heq as ->. exact He'.
Qed.

(** X7.  Whenever [analyze_review] raises, the exception is the 400 error
    of a blank text, raised before anything is sent, or one of the three
    errors of the inference client.  The catch-all handler, with its
    internal server error, never fires. *)
Theorem analyze_review_error_taxonomy
  (server : transport) (text : str) (log log' : list request) (e : exc) :
  analyze_review server text log = (Raise e, log') ->
  ((forallb isspace text = true /\
    e = HTTPException 400 empty_input_detail /\ log' = log)
   \/ (forallb isspace text = false /\ client_error e))
  /\ e <> HTTPException 500 internal_error_detail.
Proof.
  intros H. pose proof (analyze_review_raise_cases _ _ _ H) as Hcases.
  split; [exact Hcases|].
  destruct Hcases as [[_ [-> _]] | [_ [-> | [-> | ->]]]]; discriminate.
Qed.

Lemma analyze_review_error_taxonomy_witness :
  ((forallb isspace (of_string "Fine") = true /\
    HTTPException 504 timed_out_detail = HTTPException 400 empty_input_detail /\
    repeat (generate_request (sentiment_prompt (of_string "Fine"))) 3 = [])
   \/ (forallb isspace (of_string "Fine") = false /\
       client_error (HTTPException 504 timed_out_detail)))
  /\ HTTPException 504 timed_out_detail
     <> HTTPException 500 internal_error_detail.
Proof.
  apply (@analyze_review_error_taxonomy
           (always (Raises ReadTimeout)) (of_string "Fine") []).
  reflexivity.
Defined.



(** X9.  When each of the three queries is answered at its first attempt
    with a text, the result holds, field by field, the first line of the
    stripped text, stripped again, and exactly three requests were sent. *)
Theorem analyze_review_cleans_answers
  (server : transport) (text : str) (log : list request)
  (r1 r2 r3 : response) (t1 t2 t3 : str) :
  forallb isspace text = false ->
  server log (generate_request (sentiment_prompt text)) = Responds r1 ->
  server (log ++ [generate_request (sentiment_prompt text)])
         (generate_request (topic_prompt text)) = Responds r2 ->
  server (log ++ [generate_request (sentiment_prompt text);
                  generate_request (topic_prompt text)])
         (generate_request (summary_prompt text)) = Responds r3 ->
  answers_with r1 t1 -> answers_with r2 t2 -> answers_with r3 t3 ->
  analyze_review server text log
  = (Return {| sentiment := strip (before newline (strip t1));
               topic := strip (before newline (strip t2));
               summary := strip (before newline (strip t3)) |},
     log ++ [generate_request (sentiment_prompt text);
             generate_request (topic_prompt text);
             generate_request (summary_prompt text)]).
Proof.
  intros Htext H1 H2 H3 A1 A2 A3.
  assert (Hread : forall r t, answers_with r t ->
                              read_answer r = Return (PyStr (strip t))).
  { intros r t [Hs [fields [Hb Hl]]].
    unfold read_answer, response_json, dict_get, json_strip.
    rewrite Hs, Hb, Hl. reflexivity. }
  assert (Hm : (1 <= default_max_retries)%Z) by (unfold default_max_retries; lia).
  pose proof (query_ollama_first_attempt server (sentiment_prompt text)
                log H1 (Hread _ _ A1) Hm) as Q1.
  pose proof (query_ollama_first_attempt server (topic_prompt text)
                _ H2 (Hread _ _ A2) Hm) as Q2.
  assert (H3' : server ((log ++ [generate_request (sentiment_prompt text)])
                        ++ [generate_request (topic_prompt text)])
                  (generate_request (summary_prompt text)) = Responds r3)
    by (rewrite <- app_assoc; exact H3).
  pose proof (query_ollama_first_attempt server (summary_prompt text)
                _ H3' (Hread _ _ A3) Hm) as Q3.
  rewrite (analyze_review_nonblank _ _ _ Htext).
  unfold try_except, bind. rewrite Q1, Q2, Q3.
  unfold lift, ret. rewrite !clean_up_str. unfold cleaned.
  rewrite <- !app_assoc. reflexivity.
Qed.

Lemma analyze_review_cleans_answers_witness :
  let server :=
    scripted
      [Responds (ok_object
         [(of_string "response",
           JString ([newline] ++ of_string " Positive" ++ [newline]
                    ++ of_string "It works."))]);
       Responds (ok_text "Functionality ");
       Responds (ok_text "Works well.")] in
  let text := of_string "Works" in
  analyze_review server text []
  = (Return {| sentiment :=
                 strip (before newline
                   (strip ([newline] ++ of_string " Positive" ++ [newline]
                           ++ of_string "It works.")));
               topic := strip (before newline (strip (of_string "Functionality ")));
               summary := strip (before newline (strip (of_string "Works well."))) |},
     [] ++ [generate_request (sentiment_prompt text);
            generate_request (topic_prompt text);
            generate_request (summary_prompt text)]).
Proof.
  intros server text.
  apply (@analyze_review_cleans_answers server text []
           (ok_object
              [(of_string "response",
                JString ([newline] ++ of_string " Positive" ++ [newline]
                         ++ of_string "It works."))])
           (ok_text "Functionality ") (ok_text "Works well.")).
  - reflexivity.
  - reflexivity.
  - reflexivity.
  - reflexivity.
  - split; [reflexivity|]. eexists. split; reflexivity.
  - split; [reflexivity|]. eexists. split; reflexivity.
  - split; [reflexivity|]. eexists. split; reflexivity.
Defined.

(** ** The backend seen through FastAPI *)

Lemma health_check_returns server (log : list request) :
  fst (health_check server log) = Return healthy \/
  fst (health_check server log) = Return unhealthy.
Proof.
  unfold health_check, try_except, bind, send, lift, ret.
  destruct (server log tags_request) as [e|r]; simpl; [tauto|].
  destruct (raise_for_status r); simpl; tauto.
Qed.

(** X10.  The health route answers 200 in every case, with the word
    healthy or unhealthy in its body only.  The frontend looks at the
    status code alone, so its connection check succeeds whenever the
    backend answers, also when the backend reports Ollama as
    disconnected. *)
Theorem check_backend_connection_ignores_ollama
  (cell : Type) (backend : Frontend.ftransport cell)
  (st : Frontend.ui_state cell)
  (ollama : transport) (ollama_log : list request) :
  backend (Frontend.sent st) (Frontend.FGet cell Frontend.health_url 5)
  = Responds (health_route ollama ollama_log) ->
  status_code (health_route ollama ollama_log) = 200%Z /\
  (body (health_route ollama ollama_log) = Some (json_of_health healthy) \/
   body (health_route ollama ollama_log) = Some (json_of_health unhealthy)) /\
  fst (Frontend.check_backend_connection backend st) = Return true.
Proof.
  intros H.
  assert (Hs : status_code (health_route ollama ollama_log) = 200%Z).
  { unfold health_route.
    destruct (health_check_returns ollama ollama_log) as [-> | ->]; reflexivity. }
  split; [exact Hs|]. split.
  - unfold health_route.
    destruct (health_check_returns ollama ollama_log) as [-> | ->];
      [left | right]; reflexivity.
  - unfold Frontend.check_backend_connection, Frontend.ui_try,
      Frontend.ui_bind, Frontend.fsend, Frontend.ui_ret.
    rewrite H. simpl. rewrite Hs. reflexivity.
Qed.

Lemma check_backend_connection_ignores_ollama_witness :
  let ollama := always (Raises ConnectionError) in
  let backend : Frontend.ftransport str :=
    fun _ _ => Responds (health_route ollama []) in
  let st := {| Frontend.results := []; Frontend.events := [];
               Frontend.sent := [] |} in
  status_code (health_route ollama []) = 200%Z /\
  (body (health_route ollama []) = Some (json_of_health healthy) \/
   body (health_route ollama []) = Some (json_of_health unhealthy)) /\
  fst (Frontend.check_backend_connection backend st) = Return true.
Proof.
  intros ollama backend st.
  apply (@check_backend_connection_ignores_ollama str backend st ollama []).
  reflexivity.
Defined.

(** ** The batch loop of the frontend *)


Lemma subseq_refl (A : Type) (l : list A) : subseq l l.
Proof. induction l; constructor; assumption. Qed.


Section Batch.

Import Frontend.

Variable cell : Type.
Variable server : ftransport cell.










End Batch.


(** ** A batch of three rows *)

(** The first row is analysed, the second is refused by the backend, the
    request of the third times out: one entry, two error messages, three
    requests, and the progress bar at 3/3. *)
Example analyze_reviews_three_rows :
  let mk := fun id text : string =>
    {| Frontend.product_id := of_string id;
       Frontend.product_name := of_string "Mug";
       Frontend.review_text := of_string text |} in
  let df := [mk "1" "Good mug"; mk "2" " "; mk "3" "Broke"]%string in
  let answer :=
    {| sentiment := of_string "Positive";
       topic := of_string "Product Quality";
       summary := of_string "Good mug." |} in
  let refusal :=
    fastapi_response json_of_analysis
      (Raise (HTTPException 400 empty_input_detail)) in
  let server : Frontend.ftransport str :=
    fun log _ =>
      nth (List.length log)
          [Responds (fastapi_response json_of_analysis (Return answer));
           Responds refusal;
           Raises ReadTimeout]
          (Raises ConnectionError) in
  Frontend.analyze_reviews server df
    {| Frontend.results := []; Frontend.events := []; Frontend.sent := [] |}
  = (Return tt,
     {| Frontend.results :=
          [{| Frontend.a_product_id := of_string "1";
              Frontend.a_product_name := of_string "Mug";
              Frontend.a_review_text := of_string "Good mug";
              Frontend.a_sentiment := JString (of_string "Positive");
              Frontend.a_topic := JString (of_string "Product Quality");
              Frontend.a_summary := JString (of_string "Good mug.") |}];
        Frontend.events :=
          [Frontend.StatusText 1 3; Frontend.Progress 1 3;
           Frontend.StatusText 2 3; Frontend.ErrorStatus 2 refusal;
           Frontend.Progress 2 3;
           Frontend.StatusText 3 3; Frontend.ErrorTimeout 3;
           Frontend.Progress 3 3;
           Frontend.Success 1];
        Frontend.sent := map (@Frontend.analyze_request str) df |}).
Proof. reflexivity. Qed.
